(** * Exit codes of the Blaze client (src/main/cpp/blaze_exit_code.h)

    The header declares one unscoped enumeration, [blaze_exit_code::ExitCodes],
    with four enumerators and an explicit integer constant for each.  The
    enumeration is embedded as an inductive type together with the constant
    every enumerator is initialised with; the declaration itself, read as a
    table from names to integers, is kept next to it. *)

From Stdlib Require Import ZArith Lia.
From stdpp Require Import base decidable finite list strings gmap.

Local Open Scope Z_scope.

Module blaze_exit_code.

(** ** The enumeration *)

(** [enum ExitCodes { SUCCESS = 0, BAD_ARGV = 2,
                      LOCAL_ENVIRONMENTAL_ERROR = 36, INTERNAL_ERROR = 37 }] *)
Inductive ExitCodes : Set :=
  | SUCCESS
  | BAD_ARGV
  | LOCAL_ENVIRONMENTAL_ERROR
  | INTERNAL_ERROR.

(** The integer an enumerator converts to: the initialiser written after
    its [=] in the declaration. *)
Definition value (c : ExitCodes) : Z :=
  match c with
  | SUCCESS => 0
  | BAD_ARGV => 2
  | LOCAL_ENVIRONMENTAL_ERROR => 36
  | INTERNAL_ERROR => 37
  end.

(** The identifier of an enumerator, as spelled in the header. *)
Definition name (c : ExitCodes) : string :=
  match c with
  | SUCCESS => "SUCCESS"
  | BAD_ARGV => "BAD_ARGV"
  | LOCAL_ENVIRONMENTAL_ERROR => "LOCAL_ENVIRONMENTAL_ERROR"
  | INTERNAL_ERROR => "INTERNAL_ERROR"
  end.

(** The enumerators in declaration order. *)
Definition enumerators : list ExitCodes :=
  [SUCCESS; BAD_ARGV; LOCAL_ENVIRONMENTAL_ERROR; INTERNAL_ERROR].

(** The body of the [enum], line by line: identifier and constant. *)
Definition registry : list (string * Z) :=
  [ ("SUCCESS", 0);
    ("BAD_ARGV", 2);
    ("LOCAL_ENVIRONMENTAL_ERROR", 36);
    ("INTERNAL_ERROR", 37) ].

(** Resolving an identifier against the declaration.  An identifier the
    enumeration does not declare resolves to nothing. *)
Definition lookup (n : string) : option Z :=
  (list_to_map registry : gmap string Z) !! n.

#[global] Instance ExitCodes_eq_dec : EqDecision ExitCodes.
Proof. solve_decision. Defined.

End blaze_exit_code.

(** * The exit-status contract built on the enumeration

    The header holds the enumeration only.  The operations below are the
    ones the specification describes around it. *)

Module exit_status.
Import blaze_exit_code.

(** What each enumerator stands for, from the comment above it in the
    header (and, for [LOCAL_ENVIRONMENTAL_ERROR], which has no comment,
    from its identifier). *)
Inductive Category : Set :=
  | Success              (* "Success." *)
  | CallerError          (* "Command Line Problem, Bad or Illegal flags or
                            command combination, or Bad environment
                            variables.  The user must modify their command
                            line." *)
  | EnvironmentFailure   (* LOCAL_ENVIRONMENTAL_ERROR *)
  | InternalUnexpected.  (* "Unexpected server termination, due to e.g.
                            external SIGKILL, misplaced System.exit(), or a
                            JVM crash.  This exit code should be a last
                            resort." *)

Definition category (c : ExitCodes) : Category :=
  match c with
  | SUCCESS => Success
  | BAD_ARGV => CallerError
  | LOCAL_ENVIRONMENTAL_ERROR => EnvironmentFailure
  | INTERNAL_ERROR => InternalUnexpected
  end.

(** The table of the specification's external-interface section, written
    from the specification's words (value, category), to be compared with
    the declaration. *)
Definition interface_table : list (Z * Category) :=
  [ (0, Success);
    (2, CallerError);
    (36, EnvironmentFailure);
    (37, InternalUnexpected) ].

(** The range of a process exit status on the host. *)
Definition exit_status_min : Z := 0.
Definition exit_status_max : Z := 255.

(** Modelled from the spec: [select_final] is not in the header (the header
    declares no function).  The specification fixes a precedence among the
    failure categories, "user-actionable-error > environment-failure >
    internal-unexpected", and has the final code chosen "by the precedence
    rule", not by the order of the reports.  It does not rank a reported
    success; here a success yields to every failure. *)
Definition precedence (c : ExitCodes) : nat :=
  match c with
  | BAD_ARGV => 3
  | LOCAL_ENVIRONMENTAL_ERROR => 2
  | INTERNAL_ERROR => 1
  | SUCCESS => 0
  end.

(** Modelled from the spec: one step of the selection; the status chosen so
    far is kept unless the next report has strictly higher precedence. *)
Definition prefer (chosen next : ExitCodes) : ExitCodes :=
  if (precedence chosen <? precedence next)%nat then next else chosen.

(** Modelled from the spec: [select_final(candidates)], over the reports of
    one run in the order they were made.  The specification names no final
    code for a run without any report, so there is none here either. *)
Definition select_final (candidates : list ExitCodes) : option ExitCodes :=
  match candidates with
  | [] => None
  | c :: cs => Some (foldl prefer c cs)
  end.

Section classify.
Context {Signal : Type}.

(** The explicit classification rules: the status a rule assigns to an
    outcome signal, or nothing when no rule matches it.  Neither the
    header nor the specification enumerates the signals or the rules, so
    both are left open. *)
Variable rules : Signal -> option ExitCodes.

(** Modelled from the spec: [classify(outcome_signal)] is not in the
    header.  "An outcome that matches no explicit rule falls back to the
    internal/unexpected-failure category", modelled "as the default arm
    of the total classify mapping". *)
Definition classify (s : Signal) : ExitCodes :=
  match rules s with
  | Some c => c
  | None => INTERNAL_ERROR
  end.
End classify.

End exit_status.

Import blaze_exit_code exit_status.

(** * Properties *)

(** ** Structure of the enumeration *)

Lemma enumerators_NoDup : NoDup enumerators.
Proof. apply (bool_decide_unpack _). by vm_compute. Qed.

Lemma enumerators_complete (c : ExitCodes) : c ∈ enumerators.
Proof. unfold enumerators. destruct c; set_solver. Qed.

#[global] Instance ExitCodes_finite : Finite ExitCodes :=
  {| enum := enumerators;
     NoDup_enum := enumerators_NoDup;
     elem_of_enum := enumerators_complete |}.

(** The declaration table is the enumerators with their names and values. *)
Lemma registry_enumerators :
  registry = (fun c => (name c, value c)) <$> enumerators.
Proof. reflexivity. Qed.

Lemma registry_names_NoDup : NoDup registry.*1.
Proof. apply (bool_decide_unpack _). by vm_compute. Qed.

Lemma registry_values_NoDup : NoDup registry.*2.
Proof. apply (bool_decide_unpack _). by vm_compute. Qed.

#[global] Instance name_inj : Inj (=) (=) name.
Proof. intros [] []; simpl; congruence. Qed.

#[global] Instance value_inj : Inj (=) (=) value.
Proof. intros [] []; simpl; congruence. Qed.

(** [lookup] reads exactly the lines of the declaration. *)
Lemma lookup_registry (n : string) (v : Z) :
  lookup n = Some v <-> (n, v) ∈ registry.
Proof.
  unfold lookup. symmetry.
  apply elem_of_list_to_map. exact registry_names_NoDup.
Qed.

Lemma lookup_name (c : ExitCodes) : lookup (name c) = Some (value c).
Proof.
  apply lookup_registry. rewrite registry_enumerators.
  apply (list_elem_of_fmap_2 (fun c => (name c, value c))).
  apply enumerators_complete.
Qed.

Lemma lookup_Some_enumerator (n : string) (v : Z) :
  lookup n = Some v -> exists c, n = name c /\ v = value c.
Proof.
  rewrite lookup_registry, registry_enumerators.
  intros (c & Heq & _)%list_elem_of_fmap.
  exists c. by inversion Heq.
Qed.

(** Every value an enumerator can take, and nothing else. *)
Lemma value_cases (c : ExitCodes) :
  value c = 0 \/ value c = 2 \/ value c = 36 \/ value c = 37.
Proof. destruct c; simpl; auto. Qed.


(** ** The bindings of the enumeration *)

(** C1: the enumeration binds exactly the values of the external-interface
    table: success is 0, the caller-error category (bad or illegal
    command-line arguments, bad flag combination, bad environment variables)
    is 2, the local environment failure category is 36 and the
    internal/unexpected-termination category is 37; read line by line, the
    declaration is that table. *)
Theorem registry_binds_interface_table :
  value SUCCESS = 0 /\
  value BAD_ARGV = 2 /\
  value LOCAL_ENVIRONMENTAL_ERROR = 36 /\
  value INTERNAL_ERROR = 37 /\
  (fun c => (value c, category c)) <$> enumerators = interface_table /\
  (forall (v : Z) (k : Category),
      (v, k) ∈ interface_table <-> exists c, value c = v /\ category c = k).
Proof.
  repeat split; try reflexivity.
  - intros Hin. unfold interface_table in Hin.
    repeat (apply elem_of_cons in Hin as [Heq | Hin];
            [inversion Heq; subst; clear Heq |]).
    + by exists SUCCESS.
    + by exists BAD_ARGV.
    + by exists LOCAL_ENVIRONMENTAL_ERROR.
    + by exists INTERNAL_ERROR.
    + by apply elem_of_nil in Hin.
  - intros (c & <- & <-). unfold interface_table.
    destruct c; simpl; set_solver.
Qed.

(** C2: exactly one category denotes success and its value is 0; the value
    of every other category is not 0. *)
Theorem success_is_the_only_zero :
  value SUCCESS = 0 /\
  (forall c : ExitCodes, c <> SUCCESS -> value c <> 0) /\
  unique (fun c : ExitCodes => value c = 0) SUCCESS.
Proof.
  split; [reflexivity |]. split.
  - intros c Hc. destruct c; simpl; congruence.
  - split; [reflexivity |]. intros c Hc. destruct c; simpl in Hc; congruence.
Qed.

Lemma success_is_the_only_zero_witness :
  BAD_ARGV <> SUCCESS /\ value BAD_ARGV <> 0.
Proof.
  split; [discriminate |].
  apply (proj1 (proj2 success_is_the_only_zero)). discriminate.
Defined.

(** C3: two distinct categories never have the same value. *)
Theorem distinct_categories_distinct_values (c1 c2 : ExitCodes) :
  c1 <> c2 -> value c1 <> value c2.
Proof. intros Hne Heq. apply Hne. by apply (inj value). Qed.

Lemma distinct_categories_distinct_values_witness :
  LOCAL_ENVIRONMENTAL_ERROR <> INTERNAL_ERROR /\
  value LOCAL_ENVIRONMENTAL_ERROR <> value INTERNAL_ERROR.
Proof.
  split; [discriminate |].
  apply (distinct_categories_distinct_values
           LOCAL_ENVIRONMENTAL_ERROR INTERNAL_ERROR).
  discriminate.
Defined.

(** C4: every value of the enumeration lies in the range 0..255 of a
    process exit status. *)
Theorem value_in_exit_status_range (c : ExitCodes) :
  exit_status_min <= value c <= exit_status_max.
Proof. unfold exit_status_min, exit_status_max. destruct c; simpl; lia. Qed.

(** C8: looking up a category name gives one value and always the same
    one: each name of the enumeration is bound, the value found is the one
    of its enumerator, and any two results of looking the name up agree. *)
Theorem lookup_stable (c : ExitCodes) :
  lookup (name c) = Some (value c) /\
  (forall v1 v2 : Z,
      lookup (name c) = Some v1 -> lookup (name c) = Some v2 -> v1 = v2) /\
  (forall v1 v2 : Z,
      (name c, v1) ∈ registry -> (name c, v2) ∈ registry -> v1 = v2).
Proof.
  split; [apply lookup_name |]. split.
  - intros v1 v2 H1 H2. congruence.
  - intros v1 v2 H1%lookup_registry H2%lookup_registry. congruence.
Qed.

Lemma lookup_stable_witness :
  lookup (name BAD_ARGV) = Some 2 /\
  lookup "BAD_ARGV" = Some 2 /\
  (2 : Z) = 2.
Proof.
  split; [exact (proj1 (lookup_stable BAD_ARGV)) |].
  split; [by vm_compute |].
  apply (proj1 (proj2 (lookup_stable BAD_ARGV)) 2 2); by vm_compute.
Defined.

(** C10: the enumeration is closed and has exactly four bindings; the set
    of its values is {0, 2, 36, 37}; in particular no category has the
    value 1, nor any value from 3 to 35 or from 38 to 255. *)
Theorem registry_is_closed :
  card ExitCodes = 4%nat /\
  length registry = 4%nat /\
  (forall (n : string) (v : Z),
      (n, v) ∈ registry <-> exists c, n = name c /\ v = value c) /\
  (list_to_set (value <$> enum ExitCodes) : gset Z) = {[0; 2; 36; 37]} /\
  (forall v : Z,
      (exists c, value c = v) <-> v = 0 \/ v = 2 \/ v = 36 \/ v = 37) /\
  (forall c : ExitCodes, value c <> 1) /\
  (forall v : Z,
      3 <= v <= 35 \/ 38 <= v <= 255 -> forall c : ExitCodes, value c <> v).
Proof.
  split; [reflexivity |]. split; [reflexivity |]. split; [| split; [| split]].
  - intros n v. rewrite registry_enumerators, list_elem_of_fmap. split.
    + intros (c & Heq & _). exists c. by inversion Heq.
    + intros (c & -> & ->). exists c. split; [done | apply enumerators_complete].
  - apply set_eq. intros v. rewrite elem_of_list_to_set, list_elem_of_fmap.
    rewrite !elem_of_union, !elem_of_singleton. split.
    + intros (c & -> & _). destruct c; simpl; auto.
    + intros [[[-> | ->] | ->] | ->];
        [exists SUCCESS | exists BAD_ARGV
         | exists LOCAL_ENVIRONMENTAL_ERROR | exists INTERNAL_ERROR];
        (split; [reflexivity | apply elem_of_enum]).
  - intros v. split.
    + intros [c <-]. apply value_cases.
    + intros [-> | [-> | [-> | ->]]];
        [exists SUCCESS | exists BAD_ARGV
         | exists LOCAL_ENVIRONMENTAL_ERROR | exists INTERNAL_ERROR];
        reflexivity.
  - split.
    + intros c. destruct c; simpl; lia.
    + intros v Hv c. destruct c; simpl; lia.
Qed.

Lemma registry_is_closed_witness :
  (3 <= 35 <= 35 \/ 38 <= 35 <= 255) /\ value INTERNAL_ERROR <> 35.
Proof.
  assert (Hr : 3 <= 35 <= 35 \/ 38 <= 35 <= 255) by (left; lia).
  split; [exact Hr |].
  exact (proj2 (proj2 (proj2 (proj2 (proj2 (proj2 registry_is_closed)))))
           35 Hr INTERNAL_ERROR).
Defined.

(** ** Selection of the final status *)

Section select_final_facts.
Local Open Scope nat_scope.

Lemma precedence_inj (a b : ExitCodes) :
  precedence a = precedence b -> a = b.
Proof. destruct a, b; simpl; congruence. Qed.

Lemma prefer_cases (a b : ExitCodes) :
  (prefer a b = a /\ precedence b <= precedence a) \/
  (prefer a b = b /\ precedence a < precedence b).
Proof.
  unfold prefer. destruct (Nat.ltb_spec (precedence a) (precedence b)); auto.
Qed.

(** The fold returns one of the reports ... *)
Lemma foldl_prefer_elem (cs : list ExitCodes) (c : ExitCodes) :
  foldl prefer c cs ∈ c :: cs.
Proof.
  revert c. induction cs as [| d cs IH]; intros c; simpl.
  - apply list_elem_of_here.
  - destruct (prefer_cases c d) as [[-> _] | [-> _]].
    + specialize (IH c). apply elem_of_cons in IH as [-> | IH].
      * apply list_elem_of_here.
      * by do 2 apply list_elem_of_further.
    + apply list_elem_of_further, IH.
Qed.

(** ... and no report has higher precedence than the one returned. *)
Lemma foldl_prefer_upper (cs : list ExitCodes) (c d : ExitCodes) :
  d ∈ c :: cs -> precedence d <= precedence (foldl prefer c cs).
Proof.
  revert c d. induction cs as [| e cs IH]; intros c d Hd; simpl.
  - apply list_elem_of_singleton in Hd as ->. lia.
  - destruct (prefer_cases c e) as [[-> Hle] | [-> Hlt]].
    + apply elem_of_cons in Hd as [-> | Hd].
      { apply IH, list_elem_of_here. }
      apply elem_of_cons in Hd as [-> | Hd].
      * etrans; [exact Hle | apply IH, list_elem_of_here].
      * by apply IH, list_elem_of_further.
    + apply elem_of_cons in Hd as [-> | Hd]; [| by apply IH].
      etrans; [apply Nat.lt_le_incl, Hlt | apply IH, list_elem_of_here].
Qed.

(** [select_final] returns the report of highest precedence. *)
Lemma select_final_spec (l : list ExitCodes) (c : ExitCodes) :
  select_final l = Some c <->
  c ∈ l /\ forall d, d ∈ l -> precedence d <= precedence c.
Proof.
  destruct l as [| c0 cs]; simpl.
  - split; [discriminate | intros [[]%elem_of_nil _]].
  - split.
    + intros [= <-]. split; [apply foldl_prefer_elem |].
      intros d Hd. by apply foldl_prefer_upper.
    + intros [Hc Hmax]. f_equal. apply precedence_inj, Nat.le_antisymm.
      * apply Hmax, foldl_prefer_elem.
      * by apply foldl_prefer_upper.
Qed.

Lemma select_final_is_Some (l : list ExitCodes) :
  l <> [] -> is_Some (select_final l).
Proof. destruct l; [done | by eexists]. Qed.

(** The order of the reports does not matter. *)
Lemma select_final_Permutation (l1 l2 : list ExitCodes) :
  l1 ≡ₚ l2 -> select_final l1 = select_final l2.
Proof.
  intros Hp. destruct (select_final l1) as [c |] eqn:H1.
  - symmetry. apply select_final_spec. apply select_final_spec in H1.
    destruct H1 as [Hc Hmax]. split; [by rewrite <- Hp |].
    intros d Hd. apply Hmax. by rewrite Hp.
  - destruct l1; [| discriminate].
    apply Permutation_nil_l in Hp. by subst l2.
Qed.

(** A caller error wins wherever it stands among the reports. *)
Lemma select_final_BAD_ARGV (l : list ExitCodes) :
  BAD_ARGV ∈ l -> select_final l = Some BAD_ARGV.
Proof.
  intros Hin. apply select_final_spec. split; [done |].
  intros d _. destruct d; simpl; lia.
Qed.

(** The last-resort code is final only when no more specific failure was
    reported. *)
Lemma select_final_INTERNAL_ERROR (l : list ExitCodes) :
  select_final l = Some INTERNAL_ERROR ->
  (BAD_ARGV ∉ l) /\ (LOCAL_ENVIRONMENTAL_ERROR ∉ l).
Proof.
  intros [_ Hmax]%select_final_spec.
  split; intros Hin; apply Hmax in Hin; simpl in Hin; lia.
Qed.
End select_final_facts.

(** C5: for the reports [user-error, internal-crash], in that order,
    [select_final] returns the user-error code 2 and not the internal-crash
    code 37. *)
Theorem select_final_user_error_then_crash :
  select_final [BAD_ARGV; INTERNAL_ERROR] = Some BAD_ARGV /\
  value <$> select_final [BAD_ARGV; INTERNAL_ERROR] = Some 2 /\
  value <$> select_final [BAD_ARGV; INTERNAL_ERROR] <> Some 37.
Proof.
  assert (H : select_final [BAD_ARGV; INTERNAL_ERROR] = Some BAD_ARGV).
  { apply select_final_BAD_ARGV, list_elem_of_here. }
  rewrite H. repeat split. simpl. discriminate.
Qed.

(** C6: for the single report [internal-crash], [select_final] returns the
    internal-crash code 37. *)
Theorem select_final_crash_alone :
  select_final [INTERNAL_ERROR] = Some INTERNAL_ERROR /\
  value <$> select_final [INTERNAL_ERROR] = Some 37.
Proof. split; reflexivity. Qed.

(** C9: for the reports environment-failure and user-error, in either
    order, [select_final] returns the user-error code 2. *)
Theorem select_final_either_order :
  select_final [LOCAL_ENVIRONMENTAL_ERROR; BAD_ARGV] = Some BAD_ARGV /\
  select_final [BAD_ARGV; LOCAL_ENVIRONMENTAL_ERROR] = Some BAD_ARGV /\
  value <$> select_final [LOCAL_ENVIRONMENTAL_ERROR; BAD_ARGV] = Some 2 /\
  value <$> select_final [BAD_ARGV; LOCAL_ENVIRONMENTAL_ERROR] = Some 2.
Proof.
  assert (H1 : select_final [LOCAL_ENVIRONMENTAL_ERROR; BAD_ARGV]
               = Some BAD_ARGV).
  { apply select_final_BAD_ARGV. set_solver. }
  assert (H2 : select_final [BAD_ARGV; LOCAL_ENVIRONMENTAL_ERROR]
               = Some BAD_ARGV).
  { rewrite <- H1. apply select_final_Permutation, perm_swap. }
  rewrite H1, H2. repeat split.
Qed.

(** ** Classification *)

(** C7: [classify] is total: every outcome signal is given a status; a
    signal no explicit rule matches is given the internal/unexpected-failure
    status, whose code is 37, and so is never reported as success. *)
Theorem classify_total_with_fallback
    {Signal : Type} (rules : Signal -> option ExitCodes) (s : Signal) :
  (exists c : ExitCodes, classify rules s = c) /\
  (rules s = None ->
   classify rules s = INTERNAL_ERROR /\
   value (classify rules s) = 37 /\
   classify rules s <> SUCCESS).
Proof.
  split; [by eexists |].
  intros Hnone. unfold classify. rewrite Hnone. by repeat split.
Qed.

Lemma classify_total_with_fallback_witness :
  let rules := fun n : nat => if (n =? 0)%nat then Some SUCCESS else None in
  rules 1%nat = None /\
  classify rules 1%nat = INTERNAL_ERROR /\
  value (classify rules 1%nat) = 37 /\
  classify rules 1%nat <> SUCCESS.
Proof.
  intros rules. split; [reflexivity |].
  apply (proj2 (classify_total_with_fallback rules 1%nat)). reflexivity.
Defined.


(** ** Further facts about the declaration *)



(** X2: the constants grow strictly along the declaration: of two
    enumerators, the one declared earlier is the one with the smaller
    value, so comparing two codes as integers compares their places in the
    declaration. *)
Theorem values_follow_declaration_order (i j : nat) (c d : ExitCodes) :
  enumerators !! i = Some c ->
  enumerators !! j = Some d ->
  ((i < j)%nat <-> value c < value d).
Proof.
  intros Hi Hj.
  destruct i as [| [| [| [| i]]]]; simpl in Hi; try discriminate;
    destruct j as [| [| [| [| j]]]]; simpl in Hj; try discriminate;
    simplify_eq; simpl; lia.
Qed.

Lemma values_follow_declaration_order_witness :
  enumerators !! 1%nat = Some BAD_ARGV /\
  enumerators !! 3%nat = Some INTERNAL_ERROR /\
  ((1 < 3)%nat <-> value BAD_ARGV < value INTERNAL_ERROR).
Proof.
  split; [reflexivity |]. split; [reflexivity |].
  apply (values_follow_declaration_order 1 3 BAD_ARGV INTERNAL_ERROR);
    reflexivity.
Defined.
